(** * mongo-request-handler: the request descriptor and the dispatcher

    A shallow embedding of [src/main.ts] and [src/types.ts]:
    the class [MongoDBRequest], the two error classes and the function
    returned by [createSendDBRequestFunction]; and of the two transports
    of [src/tests/fetch-stub.ts] the tests run the dispatcher against.

    Modelling decisions.
    - A JavaScript object used as a record of string keys ([Query],
      the header literal) is a [gmap string _]; an object spread
      [{...a, ...b}] copies the properties of [b] onto a copy of [a].
    - [sendDBRequest] is an [async] function over a mutable descriptor
      and the network.  It is written in a small state-and-exception
      monad whose state holds the descriptor object and the log of the
      calls made to [fetch].
    - The platform is a parameter: [JSON.stringify], the string conversion
      of template literals and the behaviour of [fetch] are variables of
      the sections below, so every theorem holds for every transport.
    - One dispatch runs without interleaving: nothing else writes the
      descriptor while the call is suspended on the network.
    - Queries are finite trees of JSON data, so [JSON.stringify] and the
      string conversions are total on them; a query holding a value
      that [JSON.stringify] refuses is outside the model.
    - A [gmap] keeps no order of insertion: the theorems say which
      object is serialised, not in which order its keys are printed. *)

From stdpp Require Import gmap strings list fin_maps pretty.
From Stdlib Require Import ZArith Ascii.

Set Warnings "-register-all".
Set Default Proof Using "Type".

(** ** JavaScript values *)

(** The values a [Query] may hold ([Record<string, unknown>]), what a
    response body may parse to and what a promise may be rejected with.
    Numbers are restricted to integers; [VError] is an [Error] object
    with its [name] and [message]. *)
Inductive Value : Type :=
| VUndefined
| VNull
| VBool (b : bool)
| VNum (n : Z)
| VStr (s : string)
| VArr (l : list Value)
| VObj (o : gmap string Value)
| VError (name message : string).

(** [types.ts]: [type Query = Record<string, unknown>]. *)
Abbreviation Query := (gmap string Value).

(** [{...a, ...b}]: the own properties of [b] are copied, one by one,
    onto a copy of [a]. *)
Definition spread (a b : Query) : Query :=
  map_fold (λ k v acc, <[k := v]> acc) a b.

(** [Object.keys(o)] (only its length is used by the program). *)
Definition Object_keys (o : Query) : list string := (map_to_list o).*1.

(** [main.ts], l.345: [Object.keys(query).length > 0]. *)
Definition isExistQuery (query : Query) : bool :=
  0 <? length (Object_keys query).

(** The merge as the specification words it: one level deep, the right
    operand wins on a shared key, and a value is taken whole. *)
Definition shallow_merge (a b : Query) : Query :=
  merge (λ va vb, match vb with Some v => Some v | None => va end) a b.

(** ** Configuration and wire types ([types.ts], the fetch API) *)

Record DatabaseConfig := {
  baseUrl : string;
  dataSource : string;
  database : string;
  apiKey : string
}.

Record RequestInit := {
  method : string;
  headers : gmap string string;
  body : string
}.

(** How a promise settles. *)
Inductive Settled (E A : Type) : Type :=
| Fulfilled (a : A)
| Rejected (e : E).
Arguments Fulfilled {E A} a.
Arguments Rejected {E A} e.

(** A [Response]: its status code and what awaiting [response.json()]
    yields (the parsed body, or the parse failure it rejects with). *)
Record Response := {
  status : Z;
  json : Settled Value Value
}.

(** ** The request descriptor *)

Module MongoDBRequest.

(** [endpoint: T | null] is [None] for [null]; [priv_baseQuery] is the
    private field [#baseQuery]; [expando] holds the own properties a
    caller or a subclass has put on the instance beyond the three
    declared fields (JavaScript objects are open; the test suite
    assigns [dbRequest.headers]). *)
Record t := {
  endpoint : option string;
  priv_baseQuery : Query;
  query : Query;
  expando : Query
}.

(** [new MongoDBRequest()]. *)
Definition new : t :=
  {| endpoint := None; priv_baseQuery := ∅; query := ∅; expando := ∅ |}.

(** [get baseQuery()]. *)
Definition baseQuery (this : t) : Query := priv_baseQuery this.

(** [set baseQuery(newBaseQuery)], l.207. *)
Definition set_baseQuery (newBaseQuery : Query) (this : t) : t :=
  {| endpoint := endpoint this;
     priv_baseQuery := spread (priv_baseQuery this) newBaseQuery;
     query := query this;
     expando := expando this |}.

(** [this.query = newQuery]: a plain field write. *)
Definition set_query (newQuery : Query) (this : t) : t :=
  {| endpoint := endpoint this;
     priv_baseQuery := priv_baseQuery this;
     query := newQuery;
     expando := expando this |}.

(** [this.endpoint = newEndpoint]. *)
Definition set_endpoint (newEndpoint : option string) (this : t) : t :=
  {| endpoint := newEndpoint;
     priv_baseQuery := priv_baseQuery this;
     query := query this;
     expando := expando this |}.

(** [this[key] = value] for a key the class does not declare. *)
Definition set_property (key : string) (value : Value) (this : t) : t :=
  {| endpoint := endpoint this;
     priv_baseQuery := priv_baseQuery this;
     query := query this;
     expando := <[key := value]> (expando this) |}.

(** [get fullQuery()], l.258. *)
Definition fullQuery (this : t) : Query :=
  spread (baseQuery this) (query this).

End MongoDBRequest.

(** ** Strings of the program *)

Definition newline : string := String "010"%char EmptyString.

(** [!!value] for [T | null] with [T] a string type: [null] and the
    empty string are falsy. *)
Definition ToBoolean (value : option string) : bool :=
  match value with
  | None => false
  | Some s => negb (String.eqb s EmptyString)
  end.

(** A [T | null] used where a string is expected ([baseUrl + endpoint],
    a template literal). *)
Definition endpoint_text (value : option string) : string :=
  match value with
  | None => "null"
  | Some s => s
  end.

(** ** The error classes *)

(** The literal type of the constructor's argument. *)
Inductive ParameterName := EndpointParam | QueryParam.

Definition ParameterName_text (parameter : ParameterName) : string :=
  match parameter with
  | EndpointParam => "Endpoint"
  | QueryParam => "Query"
  end.

Module MRHMissingParameterError.

(** The instance keeps the [message] built by the constructor and the
    [name] stamped from the class. *)
Record t := {
  message : string;
  name : string
}.

(** [new MRHMissingParameterError(parameter)], l.79. *)
Definition new (parameter : ParameterName) : t :=
  {| message := "Error: Missing required parameter: " +:+ ParameterName_text parameter;
     name := "MRHMissingParameterError" |}.

End MRHMissingParameterError.

Module MRHRequestError.

(** The three [public] constructor parameters are fields of the
    instance.  At run time a field holds whatever the constructor is
    given: the dispatcher passes the descriptor's [endpoint] and the
    caught value itself. *)
Record t := {
  endpoint : option string;
  query : Query;
  mongoErrorMessage : Value;
  message : string;
  name : string
}.

Section Constructor.

Variable JSON_stringify : Query → string.
Variable ToString : Value → string.

(** [new MRHRequestError(endpoint, query, mongoErrorMessage)], l.33.
    In the template literal the sequence backslash-Q is the letter Q, so
    no line break separates the endpoint from the word Query. *)
Definition new (endpoint : option string) (query : Query)
    (mongoErrorMessage : Value) : t :=
  {| endpoint := endpoint;
     query := query;
     mongoErrorMessage := mongoErrorMessage;
     message :=
       "Error: Database request failed " +:+ ToString mongoErrorMessage
       +:+ newline +:+ "Endpoint: " +:+ endpoint_text endpoint
       +:+ "Query: " +:+ JSON_stringify query;
     name := "MRHRequestError" |}.

End Constructor.

End MRHRequestError.

(** What a dispatch may be rejected with. *)
Inductive Thrown : Type :=
| ThrownMissingParameter (e : MRHMissingParameterError.t)
| ThrownRequestError (e : MRHRequestError.t)
| ThrownValue (v : Value).

(** ** The monad of asynchronous code *)

(** One call of [fetch(url, init)]. *)
Record FetchCall := {
  call_url : string;
  call_init : RequestInit
}.

(** The state a dispatch runs in: the descriptor object the caller
    passed by reference, and the calls made to the transport so far. *)
Record World := {
  request : MongoDBRequest.t;
  network : list FetchCall
}.

(** A computation rejects with an [E] or fulfils with an [A]. *)
Definition Async (E A : Type) : Type := World → Settled E A * World.

Definition ret {E A} (a : A) : Async E A := λ w, (Fulfilled a, w).

Definition throw {E A} (e : E) : Async E A := λ w, (Rejected e, w).

Definition bind {E A B} (c : Async E A) (k : A → Async E B) : Async E B :=
  λ w, match c w with
       | (Fulfilled a, w') => k a w'
       | (Rejected e, w') => (Rejected e, w')
       end.

(** [try { body } catch (error) { handler }]. *)
Definition try_catch {E E' A} (body : Async E A) (handler : E → Async E' A)
    : Async E' A :=
  λ w, match body w with
       | (Fulfilled a, w') => (Fulfilled a, w')
       | (Rejected e, w') => handler e w'
       end.

Notation "x <- c ;; k" := (bind c (λ x, k))
  (at level 20, c at level 99, k at level 200, only parsing).

(** Reading a property (or a getter) of the descriptor. *)
Definition read {E A} (getter : MongoDBRequest.t → A) : Async E A :=
  λ w, (Fulfilled (getter (request w)), w).

(** ** The dispatcher *)

Section Dispatcher.

Variable JSON_stringify : Query → string.
Variable ToString : Value → string.

(** What the transport answers to a call: it rejects with a value or
    fulfils with a response. *)
Variable transport : string → RequestInit → Settled Value Response.

(** [await fetch(url, init)]: the call is logged, then settles. *)
Definition fetch (url : string) (init : RequestInit) : Async Value Response :=
  λ w, (transport url init,
        {| request := request w;
           network := network w ++ [{| call_url := url; call_init := init |}] |}).

(** [await response.json()]. *)
Definition Response_json (response : Response) : Async Value Value :=
  λ w, (json response, w).

(** The function returned by [createSendDBRequestFunction(config)],
    l.310-342, applied to the descriptor held in the state. *)
Definition sendDBRequest (config : DatabaseConfig) : Async Thrown Value :=
  endpoint <- read MongoDBRequest.endpoint ;;
  if negb (ToBoolean endpoint) then
    throw (ThrownMissingParameter (MRHMissingParameterError.new EndpointParam))
  else
  fullQuery <- read MongoDBRequest.fullQuery ;;
  if negb (isExistQuery fullQuery) then
    throw (ThrownMissingParameter (MRHMissingParameterError.new QueryParam))
  else
  endpoint <- read MongoDBRequest.endpoint ;;
  let url := baseUrl config +:+ endpoint_text endpoint in
  fullQuery <- read MongoDBRequest.fullQuery ;;
  let query :=
    spread (<["database" := VStr (database config)]>
             (<["dataSource" := VStr (dataSource config)]> ∅))
           fullQuery in
  let requestInit :=
    {| method := "POST";
       headers := <["api-key" := apiKey config]>
                    (<["Content-Type" := "application/json"]> ∅);
       body := JSON_stringify query |} in
  try_catch
    (response <- fetch url requestInit ;;
     result <- Response_json response ;;
     ret result)
    (λ error,
       endpoint <- read MongoDBRequest.endpoint ;;
       fullQuery <- read MongoDBRequest.fullQuery ;;
       throw (ThrownRequestError
                (MRHRequestError.new JSON_stringify ToString
                   endpoint fullQuery error))).

End Dispatcher.

(** ** Test doubles

    The transports and descriptors of [tests/fetch-stub.ts] and
    [tests/main.test.ts], used to run the dispatcher on concrete
    inputs. *)

Module Fixture.

(** The configuration of [tests/setting.ts] with the default API key;
    the base URL is an example (the tests build theirs from [APP_ID]
    and leave it empty without one). *)
Definition config : DatabaseConfig :=
  {| baseUrl := "https://data.example/action";
     dataSource := "Cluster0";
     database := "sample_mflix";
     apiKey := "API_KEY_IS_NOT_SETTED" |}.

(** A stand-in for [JSON.stringify] that renders the keys of the
    object only. *)
Definition JSON_stringify (q : Query) : string :=
  "{" +:+ String.concat "," (Object_keys q) +:+ "}".

(** String conversion of the values the doubles throw: a string is
    itself, an [Error] prints as [name: message], or as [name] alone
    when the message is empty. *)
Definition ToString (v : Value) : string :=
  match v with
  | VStr s => s
  | VError name message =>
      if String.eqb name EmptyString then message
      else if String.eqb message EmptyString then name
      else name +:+ ": " +:+ message
  | VUndefined => "undefined"
  | VNull => "null"
  | VBool b => if b then "true" else "false"
  | VNum n => pretty n
  | VArr _ | VObj _ => "[object Object]"
  end.

(** [createFetchStubForBodyCheck]: answers 200 with the request body
    as a JSON string. *)
Definition fetch_echo (url : string) (init : RequestInit)
    : Settled Value Response :=
  Fulfilled {| status := 200; json := Fulfilled (VStr (body init)) |}.

(** [() => Promise.reject(new Error("Fetch failed"))]. *)
Definition fetch_failed (url : string) (init : RequestInit)
    : Settled Value Response :=
  Rejected (VError "Error" "Fetch failed").

(** [createFetchStubForDatabaseOperation] on an unknown route:
    [new Response(null, { status: 404 })], whose empty body is not
    JSON. *)
Definition fetch_not_found (url : string) (init : RequestInit)
    : Settled Value Response :=
  Fulfilled {| status := 404;
               json := Rejected (VError "SyntaxError" "Unexpected end of JSON input") |}.

(** A server answering 500 with a JSON error document. *)
Definition fetch_server_error (url : string) (init : RequestInit)
    : Settled Value Response :=
  Fulfilled {| status := 500;
               json := Fulfilled (VObj {[ "error" := VStr "internal" ]}) |}.

(** [endpoint = "/find"; query = { collection: "books" }]. *)
Definition books_request : MongoDBRequest.t :=
  MongoDBRequest.set_query {[ "collection" := VStr "books" ]}
    (MongoDBRequest.set_endpoint (Some "/find") MongoDBRequest.new).

(** The same with [headers = { "Custom-Header": "HeaderValue" }]. *)
Definition headers_request : MongoDBRequest.t :=
  MongoDBRequest.set_property "headers"
    (VObj {[ "Custom-Header" := VStr "HeaderValue" ]}) books_request.

(** [endpoint = "/find"; query = { collection: "comments" }], the
    descriptor of the test of a failing [fetch]. *)
Definition comments_request : MongoDBRequest.t :=
  MongoDBRequest.set_query {[ "collection" := VStr "comments" ]}
    (MongoDBRequest.set_endpoint (Some "/find") MongoDBRequest.new).

(** [endpoint = "/find"] and no query at all. *)
Definition no_query_request : MongoDBRequest.t :=
  MongoDBRequest.set_endpoint (Some "/find") MongoDBRequest.new.

(** [query = { collection: "comments" }] and no endpoint. *)
Definition no_endpoint_request : MongoDBRequest.t :=
  MongoDBRequest.set_query {[ "collection" := VStr "comments" ]}
    MongoDBRequest.new.

(** A state in which nothing has been sent yet. *)
Definition world (r : MongoDBRequest.t) : World :=
  {| request := r; network := [] |}.

(** A dispatch of [r] through the transport [t], nothing sent before. *)
Definition run (t : string → RequestInit → Settled Value Response)
    (r : MongoDBRequest.t) : Settled Thrown Value * World :=
  sendDBRequest JSON_stringify ToString t config (world r).

End Fixture.

(** ** The stub of the database ([tests/fetch-stub.ts])

    [createFetchStubForDatabaseOperation] replaces [fetch] by a function
    that looks the URL up in a table of canned answers.  The body of an
    answer is JSON data without [undefined], so what [response.json()]
    parses from [JSON.stringify(body)] is [body] again. *)

(** [types.ts], l.63: the literals of the type [BasicEndpoints]. *)
Definition BasicEndpoints : list string :=
  ["/find"; "/findOne"; "/insertOne"; "/insertMany";
   "/updateOne"; "/updateMany"; "/deleteOne"; "/deleteMany"].

(** [s.endsWith(suffix)]: [suffix] is [s] or ends what follows the
    first character of [s]. *)
Fixpoint endsWith (s suffix : string) : bool :=
  String.eqb s suffix
  || match s with
     | EmptyString => false
     | String _ rest => endsWith rest suffix
     end.

(** [table[key]] in an object literal written as the list of its
    properties. *)
Fixpoint property {A} (table : list (string * A)) (key : string) : option A :=
  match table with
  | [] => None
  | (k, a) :: rest => if String.eqb k key then Some a else property rest key
  end.

Module FetchStub.

Section MockData.

(** [firstComment.date.toISOString()]; the date is the time at which the
    test module was loaded. *)
Variable date : string.

(** [tests/setting.ts]: [firstComment], its [Date] held by its ISO text. *)
Definition firstComment : Query :=
  <["date" := VStr date]>
    (<["text" := VStr "Test description..."]>
      (<["movie_id" := VStr "1"]>
        (<["email" := VStr "test@example.com"]>
          (<["name" := VStr "Tester1"]> ∅)))).

(** [{ ...firstComment, _id: "1", date: firstComment.date.toISOString() }]. *)
Definition firstDocument : Value :=
  VObj (spread firstComment
          (<["date" := VStr date]> (<["_id" := VStr "1"]> ∅))).

(** [mockData], l.40: for each route a status and a body. *)
Definition mockData : list (string * (Z * Value)) :=
  [ ("/find", (200%Z, VObj {[ "documents" := VArr [firstDocument] ]}));
    ("/findOne", (200%Z, VObj {[ "document" := firstDocument ]}));
    ("/insertOne", (200%Z, VObj {[ "insertedId" := VStr "1" ]}));
    ("/insertMany",
       (200%Z, VObj {[ "insertedIds" := VArr [VStr "2"; VStr "3"; VStr "4"] ]}));
    ("/updateOne",
       (200%Z, VObj (<["modifiedCount" := VNum 1]> (<["matchedCount" := VNum 1]> ∅))));
    ("/updateMany",
       (200%Z, VObj (<["modifiedCount" := VNum 3]> (<["matchedCount" := VNum 3]> ∅))));
    ("/deleteOne", (200%Z, VObj {[ "deletedCount" := VNum 1 ]}));
    ("/deleteMany", (200%Z, VObj {[ "deletedCount" := VNum 3 ]})) ].

(** [new Response(null, { status: 404, statusText: "Not Found" })]: the
    empty body does not parse. *)
Definition notFound : Response :=
  {| status := 404;
     json := Rejected (VError "SyntaxError" "Unexpected end of JSON input") |}.

(** The implementation installed by
    [createFetchStubForDatabaseOperation], l.31-101, on a URL that is a
    string (the dispatcher passes no other). *)
Definition createFetchStubForDatabaseOperation (url : string)
    (init : RequestInit) : Settled Value Response :=
  let route := List.find (λ key, endsWith url key) (mockData.*1) in
  match route with
  | Some key =>
      match ToBoolean route, property mockData key with
      | true, Some (status, body) =>
          Fulfilled {| status := status; json := Fulfilled body |}
      | _, _ => Fulfilled notFound
      end
  | None => Fulfilled notFound
  end.

End MockData.

End FetchStub.

(** ** Proof steps *)

(** Unfolds the monad so that a run of [sendDBRequest] computes. *)
Ltac run_async :=
  unfold sendDBRequest, try_catch, bind, read, throw, ret, fetch, Response_json;
  cbv beta iota zeta.

(** Decides a guard of the run with the hypothesis [H]. *)
Ltac guard_with H := rewrite H; cbn [negb]; cbv beta iota zeta.

(** Refutes an equation between two closed terms by evaluating them. *)
Ltac differ := let H := fresh in intros H; vm_compute in H; discriminate H.

(** * Properties *)

(** ** Object spread and emptiness *)

Lemma spread_union (a b : Query) : spread a b = b ∪ a.
Proof.
  unfold spread.
  apply (map_fold_weak_ind (λ r m, r = m ∪ a)).
  - by rewrite (left_id_L ∅ (∪)).
  - intros k v m r _ ->. by rewrite insert_union_l.
Qed.

Lemma lookup_spread (a b : Query) (k : string) :
  spread a b !! k = match b !! k with Some v => Some v | None => a !! k end.
Proof.
  rewrite spread_union, lookup_union.
  destruct (b !! k), (a !! k); reflexivity.
Qed.

Lemma lookup_shallow_merge (a b : Query) (k : string) :
  shallow_merge a b !! k = match b !! k with Some v => Some v | None => a !! k end.
Proof.
  unfold shallow_merge. rewrite lookup_merge.
  destruct (a !! k), (b !! k); reflexivity.
Qed.

(** The spread of the source is the merge of the specification. *)
Lemma spread_shallow_merge (a b : Query) : spread a b = shallow_merge a b.
Proof.
  apply map_eq; intros k.
  by rewrite lookup_spread, lookup_shallow_merge.
Qed.

Lemma spread_empty_l (b : Query) : spread ∅ b = b.
Proof. by rewrite spread_union, (right_id_L ∅ (∪)). Qed.

Lemma spread_empty_r (a : Query) : spread a ∅ = a.
Proof. by rewrite spread_union, (left_id_L ∅ (∪)). Qed.

Lemma isExistQuery_false (q : Query) : isExistQuery q = false ↔ q = ∅.
Proof.
  unfold isExistQuery, Object_keys.
  rewrite Nat.ltb_ge, length_fmap, <- map_to_list_empty_iff.
  destruct (map_to_list q); simpl; split; intros H; try done; lia.
Qed.

Lemma isExistQuery_true (q : Query) : isExistQuery q = true ↔ q ≠ ∅.
Proof.
  rewrite <- isExistQuery_false.
  destruct (isExistQuery q); split; congruence.
Qed.

Lemma append_assoc (s1 s2 s3 : string) :
  (s1 +:+ s2) +:+ s3 = s1 +:+ s2 +:+ s3.
Proof.
  induction s1 as [|c s1 IH]; [reflexivity|].
  change (String c ((s1 +:+ s2) +:+ s3) = String c (s1 +:+ s2 +:+ s3)).
  by rewrite IH.
Qed.

Lemma ToBoolean_false (e : option string) :
  ToBoolean e = false ↔ e = None ∨ e = Some EmptyString.
Proof.
  destruct e as [s|]; simpl.
  - destruct (String.eqb_spec s EmptyString) as [->|Hne]; simpl.
    + split; [by right | done].
    + split; [done | intros [?|[=]]; done].
  - split; [by left | done].
Qed.

Lemma ToBoolean_true (e : option string) :
  ToBoolean e = true ↔ ∃ s, e = Some s ∧ s ≠ EmptyString.
Proof.
  destruct e as [s|]; simpl.
  - destruct (String.eqb_spec s EmptyString) as [->|Hne]; simpl.
    + split; [done | intros (? & [= <-] & ?); done].
    + split; [eauto | done].
  - split; [done | intros (? & ? & ?); done].
Qed.


(** ** Runs of the dispatcher *)

Section Runs.

Variable JSON_stringify : Query → string.
Variable ToString : Value → string.
Variable transport : string → RequestInit → Settled Value Response.
Variable config : DatabaseConfig.

Local Abbreviation dispatch :=
  (sendDBRequest JSON_stringify ToString transport config).

(** The first guard, l.311. *)
Lemma dispatch_endpoint_falsy (w : World) :
  ToBoolean (MongoDBRequest.endpoint (request w)) = false →
  dispatch w =
    (Rejected (ThrownMissingParameter (MRHMissingParameterError.new EndpointParam)), w).
Proof. intros Hep. run_async. by guard_with Hep. Qed.

(** The second guard, l.315, is reached only past the first. *)
Lemma dispatch_query_missing (w : World) :
  ToBoolean (MongoDBRequest.endpoint (request w)) = true →
  isExistQuery (MongoDBRequest.fullQuery (request w)) = false →
  dispatch w =
    (Rejected (ThrownMissingParameter (MRHMissingParameterError.new QueryParam)), w).
Proof. intros Hep Hq. run_async. guard_with Hep. by guard_with Hq. Qed.

(** Past both guards: one call is logged and its outcome classified. *)
Lemma dispatch_valid (w : World) :
  ToBoolean (MongoDBRequest.endpoint (request w)) = true →
  isExistQuery (MongoDBRequest.fullQuery (request w)) = true →
  let r := request w in
  let url := baseUrl config +:+ endpoint_text (MongoDBRequest.endpoint r) in
  let init :=
    {| method := "POST";
       headers := <["api-key" := apiKey config]>
                    (<["Content-Type" := "application/json"]> ∅);
       body := JSON_stringify
                 (spread (<["database" := VStr (database config)]>
                           (<["dataSource" := VStr (dataSource config)]> ∅))
                         (MongoDBRequest.fullQuery r)) |} in
  let wrap error :=
    Rejected (ThrownRequestError
                (MRHRequestError.new JSON_stringify ToString
                   (MongoDBRequest.endpoint r) (MongoDBRequest.fullQuery r) error)) in
  dispatch w =
    (match transport url init with
     | Fulfilled response =>
         match json response with
         | Fulfilled result => Fulfilled result
         | Rejected error => wrap error
         end
     | Rejected error => wrap error
     end,
     {| request := r;
        network := network w ++ [{| call_url := url; call_init := init |}] |}).
Proof.
  intros Hep Hq. run_async. guard_with Hep. guard_with Hq.
  destruct (transport _ _) as [response|error]; [|reflexivity].
  destruct (json response); reflexivity.
Qed.

(** The three cases are exhaustive: how a run is classified. *)
Lemma dispatch_cases (w : World) :
  (ToBoolean (MongoDBRequest.endpoint (request w)) = false)
  ∨ (ToBoolean (MongoDBRequest.endpoint (request w)) = true
     ∧ isExistQuery (MongoDBRequest.fullQuery (request w)) = false)
  ∨ (ToBoolean (MongoDBRequest.endpoint (request w)) = true
     ∧ isExistQuery (MongoDBRequest.fullQuery (request w)) = true).
Proof.
  destruct (ToBoolean _); [|by left].
  destruct (isExistQuery _); right; [right|left]; done.
Qed.

(** The message a Request-Error is constructed with, l.39. *)
Lemma MRHRequestError_message (endpoint : option string) (query : Query)
    (error : Value) :
  MRHRequestError.message
    (MRHRequestError.new JSON_stringify ToString endpoint query error)
  = "Error: Database request failed " +:+ ToString error +:+ newline
    +:+ "Endpoint: " +:+ endpoint_text endpoint
    +:+ "Query: " +:+ JSON_stringify query.
Proof. reflexivity. Qed.

End Runs.

(** ** The request descriptor *)

(** C2 — Reading [fullQuery] returns the one-level shallow merge of the
    base query and the per-call query, and a key present in both maps
    to the per-call query's value. *)
Theorem C2_fullQuery_merge (this : MongoDBRequest.t) :
  MongoDBRequest.fullQuery this
    = shallow_merge (MongoDBRequest.baseQuery this) (MongoDBRequest.query this)
  ∧ ∀ (k : string) (v1 v2 : Value),
      MongoDBRequest.baseQuery this !! k = Some v1 →
      MongoDBRequest.query this !! k = Some v2 →
      MongoDBRequest.fullQuery this !! k = Some v2.
Proof.
  split.
  - apply spread_shallow_merge.
  - intros k v1 v2 _ Hq. unfold MongoDBRequest.fullQuery.
    by rewrite lookup_spread, Hq.
Qed.

Lemma C2_fullQuery_merge_witness :
  MongoDBRequest.fullQuery
    (MongoDBRequest.set_query {[ "limit" := VNum 5 ]}
       (MongoDBRequest.set_baseQuery
          {[ "collection" := VStr "movies"; "limit" := VNum 10 ]}
          MongoDBRequest.new))
    !! "limit" = Some (VNum 5).
Proof.
  apply (proj2 (C2_fullQuery_merge _) "limit" (VNum 10) (VNum 5));
    vm_compute; reflexivity.
Defined.

(** C3 — Two assignments [baseQuery = A] then [baseQuery = B] on a fresh
    descriptor store the right-biased one-level merge of [A] and [B]:
    a key of [B] keeps [B]'s whole value, any other key keeps [A]'s.
    An assignment to [query] stores the new mapping as it is, whatever
    was stored, and leaves the base query alone. *)
Theorem C3_setters (A B : Query) :
  let stored :=
    MongoDBRequest.baseQuery
      (MongoDBRequest.set_baseQuery B
         (MongoDBRequest.set_baseQuery A MongoDBRequest.new)) in
  stored = shallow_merge A B
  ∧ (∀ k : string,
       stored !! k = match B !! k with Some v => Some v | None => A !! k end)
  ∧ (∀ (q : Query) (this : MongoDBRequest.t),
       MongoDBRequest.query (MongoDBRequest.set_query q this) = q
       ∧ MongoDBRequest.baseQuery (MongoDBRequest.set_query q this)
         = MongoDBRequest.baseQuery this).
Proof.
  cbn. rewrite spread_empty_l. repeat split.
  - apply spread_shallow_merge.
  - intros k. apply lookup_spread.
Qed.

(** A nested object is replaced, not merged into. *)
Example baseQuery_nested_replaced :
  MongoDBRequest.baseQuery
    (MongoDBRequest.set_baseQuery {[ "filter" := VObj {[ "year" := VNum 2000 ]} ]}
       (MongoDBRequest.set_baseQuery
          {[ "filter" := VObj {[ "genre" := VStr "Sci-Fi" ]} ]}
          MongoDBRequest.new))
  = {[ "filter" := VObj {[ "year" := VNum 2000 ]} ]}.
Proof. vm_compute. reflexivity. Qed.

(** [tests/main.test.ts], "should merge baseQuery and query correctly". *)
Example fullQuery_test :
  MongoDBRequest.fullQuery
    (MongoDBRequest.set_query
       {[ "filter" := VObj {[ "genre" := VStr "Sci-Fi" ]}; "limit" := VNum 5 ]}
       (MongoDBRequest.set_baseQuery
          {[ "collection" := VStr "movies"; "limit" := VNum 10 ]}
          MongoDBRequest.new))
  = {[ "collection" := VStr "movies";
       "filter" := VObj {[ "genre" := VStr "Sci-Fi" ]};
       "limit" := VNum 5 ]}.
Proof. vm_compute. reflexivity. Qed.

(** ** The dispatcher *)

Section Dispatch.

Variable JSON_stringify : Query → string.
Variable ToString : Value → string.
Variable transport : string → RequestInit → Settled Value Response.
Variable config : DatabaseConfig.

Local Abbreviation dispatch :=
  (sendDBRequest JSON_stringify ToString transport config).

(** A descriptor passes both guards when its endpoint is a non-empty
    string and its effective query has a key. *)
Lemma valid_guards (w : World) (ep : string) :
  MongoDBRequest.endpoint (request w) = Some ep →
  ep ≠ EmptyString →
  MongoDBRequest.fullQuery (request w) ≠ ∅ →
  ToBoolean (MongoDBRequest.endpoint (request w)) = true
  ∧ isExistQuery (MongoDBRequest.fullQuery (request w)) = true.
Proof.
  intros Hep Hne Hq. split.
  - apply ToBoolean_true. eauto.
  - by apply isExistQuery_true.
Qed.

(** C1 — The preconditions are checked in a fixed order and the first
    failure wins: an unset endpoint ([null] or the empty string) fails
    with Missing-Parameter("Endpoint") whatever the queries are, and a
    set endpoint with an empty effective query fails with
    Missing-Parameter("Query").  Conversely, the dispatch fails with
    Missing-Parameter("Query") only if the endpoint is set and the
    effective query is empty, and with Missing-Parameter("Endpoint")
    only if the endpoint is unset. *)
Theorem C1_validation_order (w : World) :
  (MongoDBRequest.endpoint (request w) = None
   ∨ MongoDBRequest.endpoint (request w) = Some EmptyString →
   (dispatch w).1
   = Rejected (ThrownMissingParameter (MRHMissingParameterError.new EndpointParam)))
  ∧ (∀ ep : string,
       MongoDBRequest.endpoint (request w) = Some ep →
       ep ≠ EmptyString →
       MongoDBRequest.fullQuery (request w) = ∅ →
       (dispatch w).1
       = Rejected (ThrownMissingParameter (MRHMissingParameterError.new QueryParam)))
  ∧ ((dispatch w).1
     = Rejected (ThrownMissingParameter (MRHMissingParameterError.new QueryParam)) →
     (∃ ep : string,
        MongoDBRequest.endpoint (request w) = Some ep ∧ ep ≠ EmptyString)
     ∧ MongoDBRequest.fullQuery (request w) = ∅)
  ∧ ((dispatch w).1
     = Rejected (ThrownMissingParameter (MRHMissingParameterError.new EndpointParam)) →
     MongoDBRequest.endpoint (request w) = None
     ∨ MongoDBRequest.endpoint (request w) = Some EmptyString).
Proof.
  split; [|split; [|split]].
  - intros Hunset. apply ToBoolean_false in Hunset.
    by rewrite dispatch_endpoint_falsy.
  - intros ep Hep Hne Hempty.
    rewrite dispatch_query_missing; [done | | by apply isExistQuery_false].
    apply ToBoolean_true. eauto.
  - destruct (dispatch_cases w) as [Hb|[[Hb He]|[Hb He]]].
    + rewrite dispatch_endpoint_falsy by done. differ.
    + intros _. split; [by apply ToBoolean_true | by apply isExistQuery_false].
    + rewrite (dispatch_valid _ _ _ _ w Hb He). cbn [fst].
      destruct (transport _ _) as [response|error]; [|done].
      by destruct (json response).
  - destruct (dispatch_cases w) as [Hb|[[Hb He]|[Hb He]]].
    + intros _. by apply ToBoolean_false.
    + rewrite dispatch_query_missing by done. differ.
    + rewrite (dispatch_valid _ _ _ _ w Hb He). cbn [fst].
      destruct (transport _ _) as [response|error]; [|done].
      by destruct (json response).
Qed.

(** C4 — A valid dispatch adds exactly one call to the network: a POST
    to [baseUrl + endpoint] whose body is the JSON text of the
    [dataSource] and [database] fields merged with the effective query,
    a key of the effective query keeping the query's value. *)
Theorem C4_outgoing_request (w : World) (ep : string) :
  MongoDBRequest.endpoint (request w) = Some ep →
  ep ≠ EmptyString →
  MongoDBRequest.fullQuery (request w) ≠ ∅ →
  let injected : Query :=
    {[ "dataSource" := VStr (dataSource config);
       "database" := VStr (database config) ]} in
  let sent := shallow_merge injected (MongoDBRequest.fullQuery (request w)) in
  ∃ init : RequestInit,
    network (dispatch w).2
    = network w ++ [{| call_url := baseUrl config +:+ ep; call_init := init |}]
    ∧ method init = "POST"
    ∧ body init = JSON_stringify sent
    ∧ ∀ k : string,
        sent !! k = match MongoDBRequest.fullQuery (request w) !! k with
                    | Some v => Some v
                    | None => injected !! k
                    end.
Proof.
  intros Hep Hne Hq injected sent.
  destruct (valid_guards w ep Hep Hne Hq) as [Hb He].
  rewrite (dispatch_valid _ _ _ _ w Hb He). cbn [snd network].
  eexists. split; [by rewrite Hep|]. cbn [method body].
  split; [done|]. split.
  - rewrite spread_shallow_merge. reflexivity.
  - intros k. apply lookup_shallow_merge.
Qed.

(** Whatever the descriptor carries, a valid dispatch sends the two
    headers of the literal at l.328 and no other. *)
Lemma dispatch_valid_headers (w : World) :
  ToBoolean (MongoDBRequest.endpoint (request w)) = true →
  isExistQuery (MongoDBRequest.fullQuery (request w)) = true →
  ∃ call : FetchCall,
    network (dispatch w).2 = network w ++ [call]
    ∧ headers (call_init call)
      = {[ "Content-Type" := "application/json"; "api-key" := apiKey config ]}.
Proof.
  intros Hb He. rewrite (dispatch_valid _ _ _ _ w Hb He).
  eexists. split; [reflexivity|]. cbn [call_init headers].
  reflexivity.
Qed.

(** C8 — When the call made by a valid dispatch is answered and the
    body of the answer parses, the dispatch returns the parsed value,
    whatever the status code of the answer. *)
Theorem C8_status_not_inspected (w : World) (ep : string) (call : FetchCall)
    (code : Z) (result : Value) :
  MongoDBRequest.endpoint (request w) = Some ep →
  ep ≠ EmptyString →
  MongoDBRequest.fullQuery (request w) ≠ ∅ →
  last (network (dispatch w).2) = Some call →
  transport (call_url call) (call_init call)
  = Fulfilled {| status := code; json := Fulfilled result |} →
  (dispatch w).1 = Fulfilled result.
Proof.
  intros Hep Hne Hq.
  destruct (valid_guards w ep Hep Hne Hq) as [Hb He].
  rewrite (dispatch_valid _ _ _ _ w Hb He). cbn [fst snd network].
  rewrite last_snoc. intros [= <-]. cbn [call_url call_init].
  by intros ->.
Qed.

(** C9 — A dispatch that fails with a Missing-Parameter error has made
    no call to the transport. *)
Theorem C9_missing_parameter_offline (w : World)
    (e : MRHMissingParameterError.t) :
  (dispatch w).1 = Rejected (ThrownMissingParameter e) →
  network (dispatch w).2 = network w.
Proof.
  destruct (dispatch_cases w) as [Hb|[[Hb He]|[Hb He]]].
  - by rewrite dispatch_endpoint_falsy.
  - by rewrite dispatch_query_missing.
  - rewrite (dispatch_valid _ _ _ _ w Hb He). cbn [fst].
    destruct (transport _ _) as [response|error]; [|done].
    by destruct (json response).
Qed.

(** C10 — Whatever its outcome, a dispatch leaves the descriptor as it
    found it: endpoint, stored base query and stored per-call query. *)
Theorem C10_descriptor_unchanged (w : World) :
  request (dispatch w).2 = request w
  ∧ MongoDBRequest.endpoint (request (dispatch w).2)
    = MongoDBRequest.endpoint (request w)
  ∧ MongoDBRequest.baseQuery (request (dispatch w).2)
    = MongoDBRequest.baseQuery (request w)
  ∧ MongoDBRequest.query (request (dispatch w).2)
    = MongoDBRequest.query (request w).
Proof.
  assert (request (dispatch w).2 = request w) as Hsame.
  { destruct (dispatch_cases w) as [Hb|[[Hb He]|[Hb He]]].
    - by rewrite dispatch_endpoint_falsy.
    - by rewrite dispatch_query_missing.
    - by rewrite (dispatch_valid _ _ _ _ w Hb He). }
  by rewrite Hsame.
Qed.

(** What the catch clause of l.339 builds when the transport rejects
    the call of a valid dispatch: a Request-Error whose fields hold the
    endpoint that was addressed, the effective query that was sent and
    the caught value itself, and whose message embeds the endpoint and
    the JSON text of the effective query. *)
Lemma transport_failure_wrapped (w : World) (ep : string)
    (call : FetchCall) (error : Value) :
  MongoDBRequest.endpoint (request w) = Some ep →
  ep ≠ EmptyString →
  MongoDBRequest.fullQuery (request w) ≠ ∅ →
  last (network (dispatch w).2) = Some call →
  transport (call_url call) (call_init call) = Rejected error →
  ∃ e : MRHRequestError.t,
    (dispatch w).1 = Rejected (ThrownRequestError e)
    ∧ call_url call = baseUrl config +:+ ep
    ∧ MRHRequestError.endpoint e = Some ep
    ∧ MRHRequestError.query e = MongoDBRequest.fullQuery (request w)
    ∧ MRHRequestError.mongoErrorMessage e = error
    ∧ ∃ pre mid : string,
        MRHRequestError.message e
        = pre +:+ ep +:+ mid
          +:+ JSON_stringify (MongoDBRequest.fullQuery (request w)).
Proof.
  intros Hep Hne Hq.
  destruct (valid_guards w ep Hep Hne Hq) as [Hb He].
  rewrite (dispatch_valid _ _ _ _ w Hb He). cbn [fst snd network].
  rewrite last_snoc. intros [= <-]. cbn [call_url call_init].
  intros ->. rewrite Hep. eexists. split; [reflexivity|].
  do 4 (split; [reflexivity|]).
  exists ("Error: Database request failed " +:+ ToString error +:+ newline
          +:+ "Endpoint: "), "Query: ".
  cbn [MRHRequestError.message MRHRequestError.new endpoint_text].
  by rewrite !append_assoc.
Qed.

(** C7 — When the call made by a valid dispatch is answered but the body
    of the answer does not parse as JSON, the parse failure is caught by
    the dispatch and comes out as a Request-Error holding the endpoint
    and the effective query; it does not reach the caller as it was
    thrown. *)
Theorem C7_parse_failure_wrapped (w : World) (ep : string)
    (call : FetchCall) (code : Z) (error : Value) :
  MongoDBRequest.endpoint (request w) = Some ep →
  ep ≠ EmptyString →
  MongoDBRequest.fullQuery (request w) ≠ ∅ →
  last (network (dispatch w).2) = Some call →
  transport (call_url call) (call_init call)
  = Fulfilled {| status := code; json := Rejected error |} →
  (dispatch w).1 ≠ Rejected (ThrownValue error)
  ∧ ∃ e : MRHRequestError.t,
      (dispatch w).1 = Rejected (ThrownRequestError e)
      ∧ MRHRequestError.endpoint e = Some ep
      ∧ MRHRequestError.query e = MongoDBRequest.fullQuery (request w).
Proof.
  intros Hep Hne Hq.
  destruct (valid_guards w ep Hep Hne Hq) as [Hb He].
  rewrite (dispatch_valid _ _ _ _ w Hb He). cbn [fst snd network].
  rewrite last_snoc. intros [= <-]. cbn [call_url call_init].
  intros ->. cbn [json]. rewrite Hep. split; [discriminate|].
  eexists. split; [reflexivity|]. by split.
Qed.

End Dispatch.

(** ** The dispatcher on the test doubles *)

Lemma C1_validation_order_witness :
  (Fixture.run Fixture.fetch_echo MongoDBRequest.new).1
  = Rejected (ThrownMissingParameter (MRHMissingParameterError.new EndpointParam))
  ∧ (Fixture.run Fixture.fetch_echo Fixture.no_query_request).1
    = Rejected (ThrownMissingParameter (MRHMissingParameterError.new QueryParam))
  ∧ MongoDBRequest.fullQuery Fixture.no_query_request = ∅
  ∧ (MongoDBRequest.endpoint Fixture.no_endpoint_request = None
     ∨ MongoDBRequest.endpoint Fixture.no_endpoint_request = Some EmptyString).
Proof.
  split; [|split; [|split]].
  - apply (proj1 (C1_validation_order Fixture.JSON_stringify Fixture.ToString
                    Fixture.fetch_echo Fixture.config
                    (Fixture.world MongoDBRequest.new))).
    left. reflexivity.
  - apply (proj1 (proj2 (C1_validation_order Fixture.JSON_stringify
                           Fixture.ToString Fixture.fetch_echo Fixture.config
                           (Fixture.world Fixture.no_query_request))) "/find").
    + reflexivity.
    + differ.
    + vm_compute. reflexivity.
  - apply (proj1 (proj2 (proj2 (C1_validation_order Fixture.JSON_stringify
                                  Fixture.ToString Fixture.fetch_echo
                                  Fixture.config
                                  (Fixture.world Fixture.no_query_request))))).
    vm_compute. reflexivity.
  - apply (proj2 (proj2 (proj2 (C1_validation_order Fixture.JSON_stringify
                                  Fixture.ToString Fixture.fetch_echo
                                  Fixture.config
                                  (Fixture.world Fixture.no_endpoint_request))))).
    vm_compute. reflexivity.
Defined.

Lemma C4_outgoing_request_witness :
  ∃ init : RequestInit,
    network (Fixture.run Fixture.fetch_echo Fixture.books_request).2
    = [{| call_url := "https://data.example/action/find"; call_init := init |}]
    ∧ method init = "POST"
    ∧ body init
      = Fixture.JSON_stringify
          {[ "dataSource" := VStr "Cluster0";
             "database" := VStr "sample_mflix";
             "collection" := VStr "books" ]}.
Proof.
  destruct (C4_outgoing_request Fixture.JSON_stringify Fixture.ToString
              Fixture.fetch_echo Fixture.config
              (Fixture.world Fixture.books_request) "/find")
    as (init & Hnet & Hmethod & Hbody & _).
  - reflexivity.
  - differ.
  - differ.
  - exists init. split; [exact Hnet|]. split; [exact Hmethod|].
    rewrite Hbody. vm_compute. reflexivity.
Defined.

Lemma C7_parse_failure_wrapped_witness :
  ∃ e : MRHRequestError.t,
    (Fixture.run Fixture.fetch_not_found Fixture.books_request).1
    = Rejected (ThrownRequestError e)
    ∧ MRHRequestError.endpoint e = Some "/find".
Proof.
  destruct (C7_parse_failure_wrapped Fixture.JSON_stringify Fixture.ToString
              Fixture.fetch_not_found Fixture.config
              (Fixture.world Fixture.books_request) "/find"
              {| call_url := "https://data.example/action/find";
                 call_init :=
                   {| method := "POST";
                      headers := {[ "Content-Type" := "application/json";
                                    "api-key" := "API_KEY_IS_NOT_SETTED" ]};
                      body := "{collection,dataSource,database}" |} |}
              404 (VError "SyntaxError" "Unexpected end of JSON input"))
    as (_ & e & Hrun & Hep & _).
  - reflexivity.
  - differ.
  - differ.
  - vm_compute. reflexivity.
  - reflexivity.
  - exists e. split; [exact Hrun | exact Hep].
Defined.

Lemma C8_status_not_inspected_witness :
  (Fixture.run Fixture.fetch_server_error Fixture.books_request).1
  = Fulfilled (VObj {[ "error" := VStr "internal" ]}).
Proof.
  apply (C8_status_not_inspected Fixture.JSON_stringify Fixture.ToString
           Fixture.fetch_server_error Fixture.config
           (Fixture.world Fixture.books_request) "/find"
           {| call_url := "https://data.example/action/find";
              call_init :=
                {| method := "POST";
                   headers := {[ "Content-Type" := "application/json";
                                 "api-key" := "API_KEY_IS_NOT_SETTED" ]};
                   body := "{collection,dataSource,database}" |} |}
           500).
  - reflexivity.
  - differ.
  - differ.
  - vm_compute. reflexivity.
  - reflexivity.
Defined.

Lemma C9_missing_parameter_offline_witness :
  network (Fixture.run Fixture.fetch_echo Fixture.no_endpoint_request).2 = [].
Proof.
  apply (C9_missing_parameter_offline Fixture.JSON_stringify Fixture.ToString
           Fixture.fetch_echo Fixture.config
           (Fixture.world Fixture.no_endpoint_request)
           (MRHMissingParameterError.new EndpointParam)).
  vm_compute. reflexivity.
Defined.

(** C6 — The transport of the test "MRHRequestError should be thrown
    on fetch failure" rejects with [new Error("Fetch failed")].  The
    dispatch fails with a Request-Error that holds the endpoint and the
    effective query, but its field [mongoErrorMessage] holds the caught
    [Error] object and not the string "Fetch failed", the message of
    the transport error. *)
Theorem C6_message_field_holds_error_object :
  ∃ e : MRHRequestError.t,
    (Fixture.run Fixture.fetch_failed Fixture.comments_request).1
    = Rejected (ThrownRequestError e)
    ∧ MRHRequestError.endpoint e = Some "/find"
    ∧ MRHRequestError.query e = {[ "collection" := VStr "comments" ]}
    ∧ MRHRequestError.mongoErrorMessage e = VError "Error" "Fetch failed"
    ∧ MRHRequestError.mongoErrorMessage e ≠ VStr "Fetch failed".
Proof.
  eexists. split; [vm_compute; reflexivity|].
  cbn [MRHRequestError.endpoint MRHRequestError.query
       MRHRequestError.mongoErrorMessage].
  repeat split; vm_compute; done.
Qed.

(** The stub of the test suite answers an unknown route with status 404
    and an empty body: the parse failure does not reach the caller, a
    Request-Error does. *)
Lemma C7_counterexample :
  (Fixture.run Fixture.fetch_not_found Fixture.books_request).1
  ≠ Rejected (ThrownValue (VError "SyntaxError" "Unexpected end of JSON input"))
  ∧ ∃ e : MRHRequestError.t,
      (Fixture.run Fixture.fetch_not_found Fixture.books_request).1
      = Rejected (ThrownRequestError e)
      ∧ MRHRequestError.mongoErrorMessage e
        = VError "SyntaxError" "Unexpected end of JSON input".
Proof.
  split; [differ|].
  eexists. split; vm_compute; reflexivity.
Qed.

(** C5 — The descriptor of the test "should include custom headers in
    the request" is dispatched with the two default headers only: the
    custom header is not sent. *)
Theorem C5_custom_header_not_sent :
  ∃ call : FetchCall,
    network (Fixture.run Fixture.fetch_echo Fixture.headers_request).2 = [call]
    ∧ MongoDBRequest.expando Fixture.headers_request !! "headers"
      = Some (VObj {[ "Custom-Header" := VStr "HeaderValue" ]})
    ∧ headers (call_init call)
      = {[ "Content-Type" := "application/json";
           "api-key" := "API_KEY_IS_NOT_SETTED" ]}
    ∧ headers (call_init call) !! "Custom-Header" = None.
Proof.
  destruct (dispatch_valid_headers Fixture.JSON_stringify Fixture.ToString
              Fixture.fetch_echo Fixture.config
              (Fixture.world Fixture.headers_request))
    as (call & Hnet & Hheaders); [reflexivity | reflexivity |].
  exists call. split; [exact Hnet|]. split; [vm_compute; reflexivity|].
  split; [exact Hheaders|]. by rewrite Hheaders.
Qed.

(** [tests/main.test.ts], "basic request": the body that reaches the
    transport is the JSON text of the three fields. *)
Example basic_request_test :
  (Fixture.run Fixture.fetch_echo Fixture.books_request).1
  = Fulfilled
      (VStr (Fixture.JSON_stringify
               {[ "dataSource" := VStr "Cluster0";
                  "database" := VStr "sample_mflix";
                  "collection" := VStr "books" ]})).
Proof. vm_compute. reflexivity. Qed.


(** * Further properties of the code *)

(** ** Object spread *)

Lemma spread_assoc (a b c : Query) :
  spread (spread a b) c = spread a (spread b c).
Proof. rewrite !spread_union. by rewrite (assoc_L (∪)). Qed.

Lemma spread_idemp (a : Query) : spread a a = a.
Proof. rewrite spread_union. apply (idemp_L (∪)). Qed.

Lemma spread_empty_iff (a b : Query) : spread a b = ∅ ↔ a = ∅ ∧ b = ∅.
Proof.
  rewrite spread_union. split.
  - intros H. pose proof (map_positive_l _ _ H) as Hb. subst b.
    split; [|done]. by rewrite (left_id_L ∅ (∪)) in H.
  - intros [-> ->]. apply (left_id_L ∅ (∪)).
Qed.

Lemma dom_spread (a b : Query) : dom (spread a b) = dom a ∪ dom b.
Proof. rewrite spread_union, dom_union_L. apply (comm_L (∪)). Qed.

(** ** The query guard and the getters *)

(** X1 — [isExistQuery] counts keys, not values: it holds exactly when
    the object has a key, whatever the key maps to ([undefined] and
    [null] included). *)
Theorem isExistQuery_iff_key (q : Query) :
  (isExistQuery q = true ↔ ∃ (k : string) (v : Value), q !! k = Some v)
  ∧ ∀ (k : string) (v : Value), isExistQuery (<[k := v]> q) = true.
Proof.
  split.
  - rewrite isExistQuery_true, map_empty. split.
    + intros Hne. destruct (map_choose_or_empty q) as [?| ->]; [done|].
      destruct Hne. intros i. apply lookup_empty.
    + intros (k & v & Hk) Hnone. by rewrite Hnone in Hk.
  - intros k v. apply isExistQuery_true, insert_non_empty.
Qed.

(** X2 — The effective query is empty exactly when the base query and
    the per-call query are both empty. *)
Theorem fullQuery_empty_iff (this : MongoDBRequest.t) :
  MongoDBRequest.fullQuery this = ∅
  ↔ MongoDBRequest.baseQuery this = ∅ ∧ MongoDBRequest.query this = ∅.
Proof. apply spread_empty_iff. Qed.

(** X3 — The keys of the effective query are those of the base query
    together with those of the per-call query, and a key the per-call
    query lacks reads as in the base query. *)
Theorem fullQuery_keys (this : MongoDBRequest.t) :
  dom (MongoDBRequest.fullQuery this)
  = dom (MongoDBRequest.baseQuery this) ∪ dom (MongoDBRequest.query this)
  ∧ ∀ k : string,
      MongoDBRequest.query this !! k = None →
      MongoDBRequest.fullQuery this !! k = MongoDBRequest.baseQuery this !! k.
Proof.
  split; [apply dom_spread|].
  intros k Hk. unfold MongoDBRequest.fullQuery. by rewrite lookup_spread, Hk.
Qed.

Lemma fullQuery_keys_witness :
  MongoDBRequest.fullQuery
    (MongoDBRequest.set_query {[ "limit" := VNum 5 ]}
       (MongoDBRequest.set_baseQuery {[ "collection" := VStr "movies" ]}
          MongoDBRequest.new))
    !! "collection" = Some (VStr "movies").
Proof.
  rewrite (proj2 (fullQuery_keys _) "collection"); vm_compute; reflexivity.
Defined.

(** ** The setter of the base query *)

(** X4 — An assignment to [baseQuery] only adds keys: the stored keys are
    the old ones together with the assigned ones, and assigning the
    empty object changes nothing, so the setter cannot clear the base
    query. *)
Theorem set_baseQuery_grows (M : Query) (this : MongoDBRequest.t) :
  dom (MongoDBRequest.baseQuery (MongoDBRequest.set_baseQuery M this))
  = dom (MongoDBRequest.baseQuery this) ∪ dom M
  ∧ MongoDBRequest.set_baseQuery ∅ this = this.
Proof.
  split; [apply dom_spread|].
  destruct this as [e b q x]. unfold MongoDBRequest.set_baseQuery. cbn.
  by rewrite spread_empty_r.
Qed.

(** X5 — Two assignments to [baseQuery] amount to one assignment of the
    spread of the two mappings. *)
Theorem set_baseQuery_compose (A B : Query) (this : MongoDBRequest.t) :
  MongoDBRequest.set_baseQuery B (MongoDBRequest.set_baseQuery A this)
  = MongoDBRequest.set_baseQuery (spread A B) this.
Proof.
  unfold MongoDBRequest.set_baseQuery. cbn. by rewrite spread_assoc.
Qed.

(** X6 — Assigning the same mapping to [baseQuery] a second time changes
    nothing. *)
Theorem set_baseQuery_idempotent (A : Query) (this : MongoDBRequest.t) :
  MongoDBRequest.set_baseQuery A (MongoDBRequest.set_baseQuery A this)
  = MongoDBRequest.set_baseQuery A this.
Proof.
  unfold MongoDBRequest.set_baseQuery. cbn.
  by rewrite spread_assoc, spread_idemp.
Qed.

(** X7 — Precedence over three layers: after [baseQuery = A],
    [baseQuery = B] and [query = Q] on a fresh descriptor, a key reads
    from [Q] if [Q] has it, else from [B], else from [A]. *)
Theorem fullQuery_precedence (A B Q : Query) (k : string) :
  MongoDBRequest.fullQuery
    (MongoDBRequest.set_query Q
       (MongoDBRequest.set_baseQuery B
          (MongoDBRequest.set_baseQuery A MongoDBRequest.new))) !! k
  = match Q !! k with
    | Some v => Some v
    | None => match B !! k with
              | Some v => Some v
              | None => A !! k
              end
    end.
Proof.
  unfold MongoDBRequest.fullQuery, MongoDBRequest.baseQuery. cbn.
  rewrite !lookup_spread, lookup_empty.
  by destruct (Q !! k), (B !! k), (A !! k).
Qed.

(** ** Outcomes of a dispatch *)

Section Outcomes.

Variable JSON_stringify : Query → string.
Variable ToString : Value → string.
Variable transport : string → RequestInit → Settled Value Response.
Variable config : DatabaseConfig.

Local Abbreviation dispatch :=
  (sendDBRequest JSON_stringify ToString transport config).

Lemma dispatch_request_same (w : World) : request (dispatch w).2 = request w.
Proof.
  destruct (dispatch_cases w) as [Hb|[[Hb He]|[Hb He]]].
  - by rewrite dispatch_endpoint_falsy.
  - by rewrite dispatch_query_missing.
  - by rewrite (dispatch_valid _ _ _ _ w Hb He).
Qed.

(** X9 — The parameter named by a Missing-Parameter error tells the
    cause: "Endpoint" means the endpoint is [null] or empty; "Query"
    means the endpoint is set and both the base query and the per-call
    query are empty. *)
Theorem missing_parameter_cause (w : World) (e : MRHMissingParameterError.t) :
  (dispatch w).1 = Rejected (ThrownMissingParameter e) →
  (e = MRHMissingParameterError.new EndpointParam
   ∧ (MongoDBRequest.endpoint (request w) = None
      ∨ MongoDBRequest.endpoint (request w) = Some EmptyString))
  ∨ (e = MRHMissingParameterError.new QueryParam
     ∧ (∃ ep : string,
          MongoDBRequest.endpoint (request w) = Some ep ∧ ep ≠ EmptyString)
     ∧ MongoDBRequest.baseQuery (request w) = ∅
     ∧ MongoDBRequest.query (request w) = ∅).
Proof.
  destruct (dispatch_cases w) as [Hb|[[Hb He]|[Hb He]]].
  - rewrite dispatch_endpoint_falsy by done. intros [= <-]. left.
    split; [done|]. by apply ToBoolean_false.
  - rewrite dispatch_query_missing by done. intros [= <-]. right.
    split; [done|]. split; [by apply ToBoolean_true|].
    by apply spread_empty_iff, isExistQuery_false.
  - rewrite (dispatch_valid _ _ _ _ w Hb He). cbn [fst].
    destruct (transport _ _) as [response|error]; [|done].
    by destruct (json response).
Qed.

(** X10 — A dispatch calls the transport at most once, after the calls
    already made, and not at all exactly when the endpoint is unset or
    the effective query is empty: a rejected call is not retried. *)
Theorem dispatch_calls_at_most_once (w : World) :
  ∃ calls : list FetchCall,
    network (dispatch w).2 = network w ++ calls
    ∧ length calls ≤ 1
    ∧ (calls = [] ↔
       MongoDBRequest.endpoint (request w) = None
       ∨ MongoDBRequest.endpoint (request w) = Some EmptyString
       ∨ MongoDBRequest.fullQuery (request w) = ∅).
Proof.
  destruct (dispatch_cases w) as [Hb|[[Hb He]|[Hb He]]].
  - rewrite dispatch_endpoint_falsy by done. exists [].
    rewrite app_nil_r. repeat split; [simpl; lia|].
    intros _. apply ToBoolean_false in Hb. tauto.
  - rewrite dispatch_query_missing by done. exists [].
    rewrite app_nil_r. repeat split; [simpl; lia|].
    intros _. apply isExistQuery_false in He. tauto.
  - rewrite (dispatch_valid _ _ _ _ w Hb He). cbn [snd network].
    eexists [_]. split; [reflexivity|]. split; [simpl; lia|].
    split; [done|]. intros [Hn|[Hn|Hn]].
    + rewrite Hn in Hb. done.
    + rewrite Hn in Hb. done.
    + apply isExistQuery_false in Hn. congruence.
Qed.

(** X11 — A value returned by a dispatch is the parsed body of the
    answer to the one call the dispatch made; it is passed on as it
    is. *)
Theorem fulfilled_is_parsed_body (w : World) (result : Value) :
  (dispatch w).1 = Fulfilled result →
  ∃ (call : FetchCall) (response : Response),
    network (dispatch w).2 = network w ++ [call]
    ∧ transport (call_url call) (call_init call) = Fulfilled response
    ∧ json response = Fulfilled result.
Proof.
  destruct (dispatch_cases w) as [Hb|[[Hb He]|[Hb He]]].
  - by rewrite dispatch_endpoint_falsy.
  - by rewrite dispatch_query_missing.
  - rewrite (dispatch_valid _ _ _ _ w Hb He). cbn [fst snd network].
    destruct (transport _ _) as [response|error] eqn:Ht; [|done].
    destruct (json response) as [v|error] eqn:Hj; [|done].
    intros [= <-]. eexists _, response. split; [reflexivity|].
    cbn [call_url call_init]. by rewrite Ht.
Qed.

(** X13 — A dispatch keeps no state: dispatching the same descriptor
    again makes the same call once more and, the transport answering
    that call as before, ends the same way. *)
Theorem dispatch_again (w : World) :
  (dispatch (dispatch w).2).1 = (dispatch w).1
  ∧ ∃ calls : list FetchCall,
      network (dispatch w).2 = network w ++ calls
      ∧ network (dispatch (dispatch w).2).2 = network w ++ calls ++ calls.
Proof.
  pose proof (dispatch_request_same w) as Hsame.
  destruct (dispatch_cases w) as [Hb|[[Hb He]|[Hb He]]].
  - rewrite (dispatch_endpoint_falsy _ _ _ _ (dispatch w).2)
      by (by rewrite Hsame).
    rewrite (dispatch_endpoint_falsy _ _ _ _ w Hb).
    split; [done|]. exists []. by rewrite !app_nil_r.
  - rewrite (dispatch_query_missing _ _ _ _ (dispatch w).2)
      by (by rewrite Hsame).
    rewrite (dispatch_query_missing _ _ _ _ w Hb He).
    split; [done|]. exists []. by rewrite !app_nil_r.
  - rewrite (dispatch_valid _ _ _ _ (dispatch w).2)
      by (by rewrite Hsame).
    rewrite Hsame. rewrite (dispatch_valid _ _ _ _ w Hb He).
    cbn [fst snd network]. split; [done|].
    eexists [_]. split; [reflexivity|]. by rewrite <- (assoc_L (++)).
Qed.

(** X14 — A Request-Error means the network was reached: exactly one
    call was made, and either the transport rejected it or the body of
    its answer did not parse. *)
Theorem request_error_cause (w : World) (e : MRHRequestError.t) :
  (dispatch w).1 = Rejected (ThrownRequestError e) →
  ∃ call : FetchCall,
    network (dispatch w).2 = network w ++ [call]
    ∧ ((∃ error : Value,
          transport (call_url call) (call_init call) = Rejected error)
       ∨ (∃ (response : Response) (error : Value),
            transport (call_url call) (call_init call) = Fulfilled response
            ∧ json response = Rejected error)).
Proof.
  destruct (dispatch_cases w) as [Hb|[[Hb He]|[Hb He]]].
  - by rewrite dispatch_endpoint_falsy.
  - by rewrite dispatch_query_missing.
  - rewrite (dispatch_valid _ _ _ _ w Hb He). cbn [fst snd network].
    intros Hout. eexists. split; [reflexivity|]. cbn [call_url call_init].
    destruct (transport _ _) as [response|error]; [|left; eauto].
    destruct (json response) as [v|error] eqn:Hj; [done|]. right. eauto.
Qed.

End Outcomes.

(** ** The dispatcher through the stubs of the test suite *)

Lemma endsWith_refl (s : string) : endsWith s s = true.
Proof. destruct s; cbn [endsWith]; by rewrite String.eqb_refl. Qed.

Lemma endsWith_append (b e : string) : endsWith (b +:+ e) e = true.
Proof.
  induction b as [|c b IH]; [apply endsWith_refl|].
  change (endsWith (String c (b +:+ e)) e = true).
  cbn [endsWith]. rewrite IH. apply orb_true_r.
Qed.

(** A key that does not end [e], and that [e] does not end from its
    second character on, ends no URL made by appending [e]. *)
Lemma endsWith_append_other (b e k : string) :
  endsWith e k = false →
  match k with EmptyString => false | String _ t => endsWith t e end = false →
  endsWith (b +:+ e) k = false.
Proof.
  intros He Hk. induction b as [|c b IH]; [exact He|].
  change (endsWith (String c (b +:+ e)) k = false).
  cbn [endsWith]. rewrite IH, orb_false_r.
  destruct (String.eqb_spec (String c (b +:+ e)) k) as [<-|]; [|done].
  by rewrite endsWith_append in Hk.
Qed.

(** Decides the tests [endsWith (url +:+ route) key] of a goal, for
    closed [route] and [key]. *)
Ltac decide_suffixes :=
  repeat match goal with
    | |- context [endsWith (?u +:+ ?r) ?r] => rewrite (endsWith_append u r)
    | |- context [endsWith (?u +:+ ?r) ?k] =>
        rewrite (endsWith_append_other u r k eq_refl eq_refl)
    end.

Section Stubs.

Variable JSON_stringify : Query → string.
Variable ToString : Value → string.
Variable config : DatabaseConfig.

(** X15 — Every basic endpoint is routed to its own canned answer by the
    database stub, for every URL that ends with it: no route of the
    table shadows another. *)
Theorem stub_routes_basic_endpoints (date url e : string) (init : RequestInit) :
  e ∈ BasicEndpoints →
  ∃ body : Value,
    property (FetchStub.mockData date) e = Some (200%Z, body)
    ∧ FetchStub.createFetchStubForDatabaseOperation date (url +:+ e) init
      = Fulfilled {| status := 200; json := Fulfilled body |}.
Proof.
  unfold BasicEndpoints. rewrite !elem_of_cons, elem_of_nil.
  unfold FetchStub.createFetchStubForDatabaseOperation.
  intros H; repeat (destruct H as [->|H]); [..|done];
    cbn [FetchStub.mockData fmap list_fmap fst List.find];
    decide_suffixes; eexists; split; reflexivity.
Qed.

(** X16 — Through the database stub, a dispatch of a descriptor whose
    endpoint is a basic endpoint and whose effective query is not empty
    returns the canned body of that endpoint, for every configuration. *)
Theorem dispatch_through_database_stub (date e : string) (w : World) :
  MongoDBRequest.endpoint (request w) = Some e →
  e ∈ BasicEndpoints →
  MongoDBRequest.fullQuery (request w) ≠ ∅ →
  ∃ body : Value,
    property (FetchStub.mockData date) e = Some (200%Z, body)
    ∧ (sendDBRequest JSON_stringify ToString
         (FetchStub.createFetchStubForDatabaseOperation date) config w).1
      = Fulfilled body.
Proof.
  intros Hep He Hq.
  assert (e ≠ EmptyString) as Hne.
  { intros ->. revert He. unfold BasicEndpoints.
    rewrite !elem_of_cons, elem_of_nil.
    intros H. repeat (destruct H as [H|H]; [discriminate H|]). done. }
  destruct (valid_guards w e Hep Hne Hq) as [Hb Hg].
  rewrite (dispatch_valid _ _ _ _ w Hb Hg). cbn [fst]. rewrite Hep.
  cbn [endpoint_text].
  unfold FetchStub.createFetchStubForDatabaseOperation.
  revert He. unfold BasicEndpoints. rewrite !elem_of_cons, elem_of_nil.
  intros H; repeat (destruct H as [->|H]); [..|done];
    cbn [FetchStub.mockData fmap list_fmap fst List.find];
    decide_suffixes; eexists; split; reflexivity.
Qed.

(** X17 — Through the database stub, a dispatch to a URL that ends with
    no route of the table is answered 404 with an empty body and ends
    in a Request-Error. *)
Theorem dispatch_unknown_route (date e : string) (w : World) :
  MongoDBRequest.endpoint (request w) = Some e →
  e ≠ EmptyString →
  MongoDBRequest.fullQuery (request w) ≠ ∅ →
  (∀ key : string, key ∈ BasicEndpoints →
     endsWith (baseUrl config +:+ e) key = false) →
  ∃ err : MRHRequestError.t,
    (sendDBRequest JSON_stringify ToString
       (FetchStub.createFetchStubForDatabaseOperation date) config w).1
    = Rejected (ThrownRequestError err)
    ∧ MRHRequestError.endpoint err = Some e.
Proof.
  intros Hep Hne Hq Hnone.
  destruct (valid_guards w e Hep Hne Hq) as [Hb Hg].
  rewrite (dispatch_valid _ _ _ _ w Hb Hg). cbn [fst]. rewrite Hep.
  cbn [endpoint_text].
  unfold FetchStub.createFetchStubForDatabaseOperation.
  cbn [FetchStub.mockData fmap list_fmap fst List.find].
  rewrite !Hnone by (unfold BasicEndpoints; set_solver).
  cbn [json FetchStub.notFound]. eexists. by split.
Qed.

(** X18 — Through the body-checking stub, a valid dispatch returns, as a
    string, the JSON text of the [dataSource] and [database] fields
    merged with the effective query. *)
Theorem dispatch_through_echo_stub (w : World) (ep : string) :
  MongoDBRequest.endpoint (request w) = Some ep →
  ep ≠ EmptyString →
  MongoDBRequest.fullQuery (request w) ≠ ∅ →
  (sendDBRequest JSON_stringify ToString Fixture.fetch_echo config w).1
  = Fulfilled
      (VStr (JSON_stringify
               (shallow_merge
                  {[ "dataSource" := VStr (dataSource config);
                     "database" := VStr (database config) ]}
                  (MongoDBRequest.fullQuery (request w))))).
Proof.
  intros Hep Hne Hq.
  destruct (valid_guards w ep Hep Hne Hq) as [Hb Hg].
  rewrite (dispatch_valid _ _ _ _ w Hb Hg). cbn [fst].
  unfold Fixture.fetch_echo. cbn [json body].
  by rewrite spread_shallow_merge.
Qed.

End Stubs.

(** ** The further properties on the test doubles *)

Lemma missing_parameter_cause_witness :
  MongoDBRequest.baseQuery Fixture.no_query_request = ∅
  ∧ MongoDBRequest.query Fixture.no_query_request = ∅.
Proof.
  destruct (missing_parameter_cause Fixture.JSON_stringify Fixture.ToString
              Fixture.fetch_echo Fixture.config
              (Fixture.world Fixture.no_query_request)
              (MRHMissingParameterError.new QueryParam))
    as [[Hp _]|(_ & _ & Hb & Hq)].
  - vm_compute. reflexivity.
  - discriminate Hp.
  - split; [exact Hb | exact Hq].
Defined.

Lemma fulfilled_is_parsed_body_witness :
  ∃ (call : FetchCall) (response : Response),
    network (Fixture.run Fixture.fetch_server_error Fixture.books_request).2
    = [call]
    ∧ Fixture.fetch_server_error (call_url call) (call_init call)
      = Fulfilled response
    ∧ json response = Fulfilled (VObj {[ "error" := VStr "internal" ]}).
Proof.
  apply (fulfilled_is_parsed_body Fixture.JSON_stringify Fixture.ToString
           Fixture.fetch_server_error Fixture.config
           (Fixture.world Fixture.books_request)).
  vm_compute. reflexivity.
Defined.

Lemma request_error_cause_witness :
  ∃ call : FetchCall,
    network (Fixture.run Fixture.fetch_failed Fixture.books_request).2 = [call]
    ∧ ((∃ error : Value,
          Fixture.fetch_failed (call_url call) (call_init call) = Rejected error)
       ∨ (∃ (response : Response) (error : Value),
            Fixture.fetch_failed (call_url call) (call_init call)
            = Fulfilled response
            ∧ json response = Rejected error)).
Proof.
  apply (request_error_cause Fixture.JSON_stringify Fixture.ToString
           Fixture.fetch_failed Fixture.config
           (Fixture.world Fixture.books_request)
           (MRHRequestError.new Fixture.JSON_stringify Fixture.ToString
              (Some "/find") {[ "collection" := VStr "books" ]}
              (VError "Error" "Fetch failed"))).
  vm_compute. reflexivity.
Defined.

Lemma stub_routes_basic_endpoints_witness :
  ∃ body : Value,
    property (FetchStub.mockData "2024-01-01T00:00:00.000Z") "/insertOne"
    = Some (200%Z, body)
    ∧ FetchStub.createFetchStubForDatabaseOperation "2024-01-01T00:00:00.000Z"
        ("https://data.example/action" +:+ "/insertOne")
        {| method := "POST"; headers := ∅; body := "{}" |}
      = Fulfilled {| status := 200; json := Fulfilled body |}.
Proof.
  apply stub_routes_basic_endpoints.
  unfold BasicEndpoints. rewrite !elem_of_cons. tauto.
Defined.

Lemma dispatch_through_database_stub_witness :
  ∃ body : Value,
    property (FetchStub.mockData "2024-01-01T00:00:00.000Z") "/find"
    = Some (200%Z, body)
    ∧ (sendDBRequest Fixture.JSON_stringify Fixture.ToString
         (FetchStub.createFetchStubForDatabaseOperation "2024-01-01T00:00:00.000Z")
         Fixture.config (Fixture.world Fixture.books_request)).1
      = Fulfilled body.
Proof.
  apply dispatch_through_database_stub.
  - reflexivity.
  - unfold BasicEndpoints. rewrite !elem_of_cons. tauto.
  - differ.
Defined.

Lemma dispatch_unknown_route_witness :
  ∃ err : MRHRequestError.t,
    (sendDBRequest Fixture.JSON_stringify Fixture.ToString
       (FetchStub.createFetchStubForDatabaseOperation "2024-01-01T00:00:00.000Z")
       Fixture.config
       (Fixture.world
          (MongoDBRequest.set_endpoint (Some "/aggregate") Fixture.books_request))).1
    = Rejected (ThrownRequestError err)
    ∧ MRHRequestError.endpoint err = Some "/aggregate".
Proof.
  apply dispatch_unknown_route.
  - reflexivity.
  - discriminate.
  - differ.
  - intros key. unfold BasicEndpoints. rewrite !elem_of_cons, elem_of_nil.
    intros H. repeat (destruct H as [->|H]; [vm_compute; reflexivity|]). done.
Defined.

Lemma dispatch_through_echo_stub_witness :
  (Fixture.run Fixture.fetch_echo Fixture.books_request).1
  = Fulfilled
      (VStr (Fixture.JSON_stringify
               (shallow_merge
                  {[ "dataSource" := VStr "Cluster0";
                     "database" := VStr "sample_mflix" ]}
                  (MongoDBRequest.fullQuery Fixture.books_request)))).
Proof.
  apply (dispatch_through_echo_stub Fixture.JSON_stringify Fixture.ToString
           Fixture.config (Fixture.world Fixture.books_request) "/find").
  - reflexivity.
  - discriminate.
  - differ.
Defined.
